(** * chisq_test_wrapper: the packaging manifest [setup.py]

    The repository consists of one file, [setup.py], a distutils build
    script: one [from ... import] statement and one call of [setup] with
    keyword arguments that are string and list literals.

    The development embeds
    - the text of the file, line by line ([source_lines]);
    - its abstract syntax ([setup_py]) in a small fragment of Python
      (names, string literals, list displays, keyword calls), together
      with a printer that gives the text back;
    - an interpreter for that fragment over an explicit state: the module
      globals and the distribution object the last [setup] call built. *)

From Stdlib Require Import Ascii String.
From stdpp Require Import gmap strings list fin_maps.

Local Open Scope string_scope.
#[local] Set Warnings "-register-all".

(** ** The file, as text *)

(** The thirteen lines of [setup.py]; the last one has no newline after it. *)
Definition source_lines : list string :=
  [ "from distutils.core import setup";
    "";
    "setup(";
    "    name='chisq_test_wrapper',";
    "    version='',";
    "    packages=['statsmodels', 'scipy'],";
    "    url='https://github.com/neuhofmo/chisq_test_wrapper',";
    "    license='',";
    "    author='',";
    "    author_email='',";
    "    description='A friendly, automated chi-square test function which takes care of post-hoc tests and multiple comparisons',";
    "    requires=['statsmodels', 'scipy']";
    ")" ].

(** ** Abstract syntax of the fragment of Python the file is written in *)

Inductive expr : Type :=
  | EStr (s : string)
  | EList (items : list expr)
  | EName (x : string).

Inductive stmt : Type :=
  | SImportFrom (module : string) (names : list string)
  | SCall (func : string) (keywords : list (string * expr)).

(** [setup.py], statement by statement. *)
Definition setup_py : list stmt :=
  [ SImportFrom "distutils.core" ["setup"];
    SCall "setup"
      [ ("name", EStr "chisq_test_wrapper");
        ("version", EStr "");
        ("packages", EList [EStr "statsmodels"; EStr "scipy"]);
        ("url", EStr "https://github.com/neuhofmo/chisq_test_wrapper");
        ("license", EStr "");
        ("author", EStr "");
        ("author_email", EStr "");
        ("description", EStr "A friendly, automated chi-square test function which takes care of post-hoc tests and multiple comparisons");
        ("requires", EList [EStr "statsmodels"; EStr "scipy"]) ] ].

(** ** Printing the syntax back to text *)

Fixpoint join (sep : string) (l : list string) : string :=
  match l with
  | [] => ""
  | [x] => x
  | x :: r => x ++ sep ++ join sep r
  end.

Fixpoint render_expr (e : expr) : string :=
  match e with
  | EStr s => "'" ++ s ++ "'"
  | EList items => "[" ++ join ", " (map render_expr items) ++ "]"
  | EName x => x
  end.

Definition render_keyword (kw : string * expr) : string :=
  "    " ++ kw.1 ++ "=" ++ render_expr kw.2.

(** One keyword per line, a comma after each but the last. *)
Fixpoint render_keywords (kws : list (string * expr)) : list string :=
  match kws with
  | [] => []
  | [kw] => [render_keyword kw]
  | kw :: r => (render_keyword kw ++ ",") :: render_keywords r
  end.

Definition render_stmt (s : stmt) : list string :=
  match s with
  | SImportFrom m names => ["from " ++ m ++ " import " ++ join ", " names]
  | SCall f kws => [f ++ "("] ++ render_keywords kws ++ [")"]
  end.

(** Top-level statements are separated by one empty line. *)
Fixpoint render (p : list stmt) : list string :=
  match p with
  | [] => []
  | [s] => render_stmt s
  | s :: r => render_stmt s ++ [""] ++ render r
  end.

(** ** Evaluation *)

Inductive object : Type :=
  | OStr (s : string)
  | OList (items : list object)
  | OFunc (module name : string).

(** Module globals, and the distribution built by the last [setup] call:
    the dictionary of the attributes it was given. *)
Record state : Type := State {
  globals : gmap string object;
  distribution : option (gmap string object)
}.

Definition initial : state := State ∅ None.

Fixpoint eval (g : gmap string object) (e : expr) : option object :=
  match e with
  | EStr s => Some (OStr s)
  | EList items => OList <$> mapM (eval g) items
  | EName x => g !! x
  end.

Definition eval_keyword (g : gmap string object) (kw : string * expr)
  : option (string * object) :=
  v ← eval g kw.2; Some (kw.1, v).

Definition is_setup (o : object) : bool :=
  match o with
  | OFunc m n => String.eqb m "distutils.core" && String.eqb n "setup"
  | _ => false
  end.

(** [from m import n, ...] binds each name; a call evaluates its keyword
    arguments left to right and, when the callee is distutils' [setup],
    builds the distribution from them.  A repeated keyword is a syntax
    error, an unbound name is a NameError, and only [setup] is callable:
    all three are [None]. *)
Definition exec_stmt (s : stmt) (σ : state) : option state :=
  match s with
  | SImportFrom m names =>
      Some (State (foldl (λ g n, <[n := OFunc m n]> g) (globals σ) names)
                  (distribution σ))
  | SCall f kws =>
      if decide (NoDup kws.*1) then
        callee ← globals σ !! f;
        if is_setup callee then
          attrs ← mapM (eval_keyword (globals σ)) kws;
          Some (State (globals σ) (Some (list_to_map attrs)))
        else None
      else None
  end.

Fixpoint exec (p : list stmt) (σ : state) : option state :=
  match p with
  | [] => Some σ
  | s :: r => σ' ← exec_stmt s σ; exec r σ'
  end.

(** The metadata the manifest declares: the distribution after running the
    file from scratch. *)
Definition manifest : option (gmap string object) :=
  σ ← exec setup_py initial; distribution σ.

Definition field (k : string) : option object :=
  m ← manifest; m !! k.

Definition as_str (o : object) : option string :=
  match o with
  | OStr s => Some s
  | _ => None
  end.

Definition as_str_list (o : object) : option (list string) :=
  match o with
  | OList items => mapM as_str items
  | _ => None
  end.

Definition str_field (k : string) : option string := field k ≫= as_str.
Definition list_field (k : string) : option (list string) := field k ≫= as_str_list.

(** ** Syntactic observations *)

Fixpoint is_literal (e : expr) : bool :=
  match e with
  | EStr _ => true
  | EList items => forallb is_literal items
  | EName _ => false
  end.

Definition literal_args (s : stmt) : bool :=
  match s with
  | SImportFrom _ _ => true
  | SCall _ kws => forallb (λ kw, is_literal kw.2) kws
  end.

Definition imports (p : list stmt) : list (string * list string) :=
  omap (λ s, match s with SImportFrom m ns => Some (m, ns) | _ => None end) p.

Definition calls (p : list stmt) : list string :=
  omap (λ s, match s with SCall f _ => Some f | _ => None end) p.

Definition keywords_of (p : list stmt) : list string :=
  p ≫= (λ s, match s with SCall _ kws => kws.*1 | _ => [] end).

(** ** Observations on the text *)

Fixpoint contains (needle hay : string) : bool :=
  String.prefix needle hay ||
  match hay with
  | EmptyString => false
  | String _ r => contains needle r
  end.

Definition mentions_any (needles : list string) (hay : string) : bool :=
  existsb (λ n, contains n hay) needles.

(** What is left of a line once its single-quoted literals are taken out. *)
Fixpoint strip_literals (in_str : bool) (s : string) : string :=
  match s with
  | EmptyString => EmptyString
  | String c r =>
      if Ascii.eqb c "'" then strip_literals (negb in_str) r
      else if in_str then strip_literals in_str r
      else String c (strip_literals in_str r)
  end.

Definition code_part (line : string) : string := strip_literals false line.

(** Tokens that start a definition, a branch or a loop, and the arithmetic
    and comparison operators: what a line that computes something is
    written with. *)
Definition logic_tokens : list string :=
  [ "def "; "class "; "lambda"; "return"; "for "; "while "; "if "; "else";
    "+"; "-"; "*"; "/"; "%"; "<"; ">" ].

Definition core_logic_line (line : string) : bool :=
  mentions_any logic_tokens (code_part line).

Definition core_logic_lines (lines : list string) : nat :=
  length (filter (λ l, core_logic_line l = true) lines).

(** Names through which a script reads its command line, reads or writes
    files, talks to the network or stores state. *)
Definition io_tokens : list string :=
  [ "sys"; "argv"; "argparse"; "optparse"; "getopt"; "input"; "open";
    "read"; "write"; "socket"; "pickle"; "shelve"; "sqlite"; "__main__" ].

(** The [setup] keywords that make the packaging tool install commands or
    data files. *)
Definition surface_keywords : list string :=
  [ "scripts"; "entry_points"; "data_files"; "package_data" ].

(** Version constraints as a requirement string can carry them: comparison
    operators, or a parenthesised version. *)
Definition version_markers : list string :=
  [ "=="; ">="; "<="; "!="; "~="; "<"; ">"; "("; ")" ].

Definition has_version_specifier (req : string) : bool :=
  mentions_any version_markers req.

(** The purpose string as the specification words it. *)
Definition spec_purpose : string :=
  "a friendly, automated chi-square test function which takes care of post-hoc tests and multiple comparisons".

Definition upper_ascii (c : ascii) : ascii :=
  let n := nat_of_ascii c in
  if (97 <=? n)%nat && (n <=? 122)%nat then ascii_of_nat (n - 32) else c.

Definition upper_first (s : string) : string :=
  match s with
  | EmptyString => EmptyString
  | String c r => String (upper_ascii c) r
  end.

Definition setup_fn : object := OFunc "distutils.core" "setup".

(** * Properties *)

(** ** The syntax is the text *)

Lemma render_setup_py : render setup_py = source_lines.
Proof. reflexivity. Qed.

(** ** The observations tell programs apart *)

Example pinned_requirement_detected :
  has_version_specifier "scipy>=1.0" = true
  ∧ has_version_specifier "statsmodels (==0.9)" = true
  ∧ has_version_specifier "scipy" = false.
Proof. repeat split; reflexivity. Qed.

Example computing_line_detected :
  core_logic_line "    chi2 = ((obs - exp) ** 2 / exp).sum()" = true
  ∧ core_logic_line "def chisq(table):" = true
  ∧ core_logic_line "    url='https://github.com/a-b',"  = false.
Proof. repeat split; reflexivity. Qed.

Example command_line_detected :
  mentions_any io_tokens (code_part "args = sys.argv[1:]") = true
  ∧ mentions_any io_tokens (code_part "with open('table.csv') as f:") = true.
Proof. repeat split; reflexivity. Qed.

Example unbound_callee_fails :
  exec [SCall "setup" [("name", EStr "x")]] initial = None.
Proof. reflexivity. Qed.

Example repeated_keyword_fails :
  exec [SImportFrom "distutils.core" ["setup"];
        SCall "setup" [("name", EStr "x"); ("name", EStr "y")]] initial = None.
Proof. reflexivity. Qed.

Example name_argument_reads_globals :
  eval {["v" := OStr "1.0"]} (EList [EName "v"]) = Some (OList [OStr "1.0"])
  ∧ eval ∅ (EList [EName "v"]) = None.
Proof. split; reflexivity. Qed.

(** ** Running the file *)

Lemma setup_keywords_distinct :
  NoDup (keywords_of setup_py).
Proof. apply (bool_decide_unpack _). vm_compute. reflexivity. Qed.

(** From any state, the file runs to completion: it binds [setup] and
    leaves the declared metadata as the distribution. *)
Lemma exec_setup_py (σ : state) :
  exec setup_py σ
  = Some (State (<["setup" := setup_fn]> (globals σ)) manifest).
Proof.
  unfold setup_py. cbn [exec exec_stmt foldl globals distribution mbind option_bind].
  destruct (decide _) as [_ | Hdup].
  - rewrite lookup_insert_eq. reflexivity.
  - destruct Hdup. pose proof setup_keywords_distinct as H.
    cbn in H. exact H.
Qed.

Lemma manifest_declared : is_Some manifest.
Proof. vm_compute. eauto. Qed.

(** ** Literals do not read the globals *)

Lemma expr_nested_ind (P : expr → Prop) :
  (∀ s, P (EStr s)) →
  (∀ items, Forall P items → P (EList items)) →
  (∀ x, P (EName x)) →
  ∀ e, P e.
Proof.
  intros Hstr Hlist Hname. fix IH 1. intros [s | items | x].
  - apply Hstr.
  - apply Hlist. induction items as [| e items IHitems]; constructor.
    + apply IH.
    + exact IHitems.
  - apply Hname.
Qed.

Lemma eval_literal (g1 g2 : gmap string object) (e : expr) :
  is_literal e = true → eval g1 e = eval g2 e.
Proof.
  induction e as [s | items IHitems | x] using expr_nested_ind; intros Hlit.
  - reflexivity.
  - cbn [eval]. f_equal.
    cbn [is_literal] in Hlit.
    induction IHitems as [| e items He _ IH]; [reflexivity |].
    cbn [forallb] in Hlit. apply andb_prop in Hlit as [Hhd Htl].
    cbn [mapM]. by rewrite (He Hhd), (IH Htl).
  - discriminate.
Qed.

Lemma eval_keywords_literal (g1 g2 : gmap string object)
    (kws : list (string * expr)) :
  forallb (λ kw, is_literal kw.2) kws = true →
  mapM (eval_keyword g1) kws = mapM (eval_keyword g2) kws.
Proof.
  induction kws as [| kw kws IH]; intros Hlit; [reflexivity |].
  cbn [forallb] in Hlit. apply andb_prop in Hlit as [Hkw Hkws].
  assert (eval_keyword g1 kw = eval_keyword g2 kw) as Heq.
  { unfold eval_keyword. by rewrite (eval_literal g1 g2 _ Hkw). }
  cbn [mapM]. by rewrite Heq, (IH Hkws).
Qed.

(** A call with literal arguments builds the same distribution in any two
    states that agree on the callee. *)
Lemma exec_call_literal (f : string) (kws : list (string * expr))
    (σ1 σ2 : state) :
  forallb (λ kw, is_literal kw.2) kws = true →
  globals σ1 !! f = globals σ2 !! f →
  distribution <$> exec_stmt (SCall f kws) σ1
  = distribution <$> exec_stmt (SCall f kws) σ2.
Proof.
  intros Hlit Hf. cbn [exec_stmt]. destruct (decide _); [| reflexivity].
  rewrite Hf. destruct (globals σ2 !! f) as [callee |]; [| reflexivity].
  cbn. destruct (is_setup callee); [| reflexivity].
  rewrite (eval_keywords_literal _ (globals σ2) _ Hlit).
  by destruct (mapM _ kws).
Qed.


Lemma exec_singleton (s : stmt) (σ : state) : exec [s] σ = exec_stmt s σ.
Proof. cbn [exec]. by destruct (exec_stmt s σ). Qed.

(** Importing the callee first makes the two states agree on it. *)
Lemma exec_import_call_literal (m f : string) (kws : list (string * expr))
    (σ1 σ2 : state) :
  literal_args (SCall f kws) = true →
  distribution <$> exec [SImportFrom m [f]; SCall f kws] σ1
  = distribution <$> exec [SImportFrom m [f]; SCall f kws] σ2.
Proof.
  intros Hlit.
  change (exec [SImportFrom m [f]; SCall f kws] σ1)
    with (exec [SCall f kws]
            (State (<[f := OFunc m f]> (globals σ1)) (distribution σ1))).
  change (exec [SImportFrom m [f]; SCall f kws] σ2)
    with (exec [SCall f kws]
            (State (<[f := OFunc m f]> (globals σ2)) (distribution σ2))).
  rewrite !exec_singleton. apply exec_call_literal; [exact Hlit |].
  cbn [globals]. by rewrite !lookup_insert_eq.
Qed.

(** ** The declared metadata *)

(** C1: the manifest declares exactly two dependencies: its [requires] list
    has length two and holds exactly the names statsmodels and scipy. *)
Theorem requires_two_dependencies :
  ∃ deps : list string,
    list_field "requires" = Some deps
    ∧ length deps = 2
    ∧ NoDup deps
    ∧ ∀ n, n ∈ deps ↔ n = "statsmodels" ∨ n = "scipy".
Proof.
  exists ["statsmodels"; "scipy"]. split; [by vm_compute |].
  split; [reflexivity |]. split.
  - apply (bool_decide_unpack _). by vm_compute.
  - intros n. rewrite !elem_of_cons, elem_of_nil. tauto.
Qed.

(** C2, as the specification states it, fails: the description is not,
    character for character, the purpose string of the specification. *)
Lemma description_differs_from_spec_purpose :
  ¬ (∃ d : string,
       str_field "description" = Some d
       ∧ 0 < String.length d
       ∧ d = spec_purpose).
Proof.
  intros (d & Hd & _ & ->). vm_compute in Hd. discriminate Hd.
Qed.

(** C2, amended: the description is a non-empty string, equal character
    for character to the purpose string of the specification with its
    first letter in upper case. *)
Theorem description_is_capitalised_purpose :
  ∃ d : string,
    str_field "description" = Some d
    ∧ 0 < String.length d
    ∧ d = upper_first spec_purpose
    ∧ d = "A friendly, automated chi-square test function which takes care of post-hoc tests and multiple comparisons".
Proof.
  eexists. split; [by vm_compute |]. split; [cbn; lia |].
  split; reflexivity.
Qed.

(** C3: running the manifest again changes nothing: from any state the
    file runs to a state from which it runs to that same state, and the
    distribution there is the declared metadata. *)
Theorem reparse_idempotent (σ : state) :
  ∃ σ' : state,
    exec setup_py σ = Some σ'
    ∧ exec setup_py σ' = Some σ'
    ∧ distribution σ' = manifest
    ∧ is_Some manifest.
Proof.
  eexists. split; [apply exec_setup_py |].
  split; [| split; [reflexivity | apply manifest_declared]].
  rewrite exec_setup_py. cbn [globals]. by rewrite insert_insert_eq.
Qed.

(** C4: version, license, author and author_email are the empty string;
    name, url and description are non-empty strings. *)
Theorem empty_and_nonempty_fields :
  str_field "version" = Some ""
  ∧ str_field "license" = Some ""
  ∧ str_field "author" = Some ""
  ∧ str_field "author_email" = Some ""
  ∧ ∃ n u d : string,
      str_field "name" = Some n
      ∧ str_field "url" = Some u
      ∧ str_field "description" = Some d
      ∧ 0 < String.length n
      ∧ 0 < String.length u
      ∧ 0 < String.length d.
Proof.
  repeat (split; [by vm_compute |]).
  do 3 eexists. repeat (split; [by vm_compute |]).
  split; [| split]; cbn; lia.
Qed.

(** C5: the [requires] list duplicates the [packages] list: the two fields
    are the same list, statsmodels then scipy. *)
Theorem requires_duplicates_packages :
  field "requires" = field "packages"
  ∧ list_field "requires" = Some ["statsmodels"; "scipy"]
  ∧ list_field "packages" = Some ["statsmodels"; "scipy"].
Proof. repeat split; by vm_compute. Qed.

(** C6: the file has thirteen lines, its syntax prints back to exactly
    those lines, none of them holds a definition, a branch, a loop or an
    arithmetic operator outside a string literal, and the only function
    called is [setup]. *)
Theorem thirteen_lines_no_core_logic :
  length source_lines = 13
  ∧ render setup_py = source_lines
  ∧ core_logic_lines source_lines = 0
  ∧ calls setup_py = ["setup"].
Proof. repeat split; by vm_compute. Qed.

(** C7: the file imports only [setup] from [distutils.core], calls only
    it, leaves no other name bound when run from scratch, passes none of
    the keywords that install commands or data files, and mentions no
    command-line, file, network or storage interface in its code. *)
Theorem no_interface_beyond_setup :
  imports setup_py = [("distutils.core", ["setup"])]
  ∧ calls setup_py = ["setup"]
  ∧ (∃ σ, exec setup_py initial = Some σ
          ∧ globals σ = {["setup" := setup_fn]})
  ∧ Forall (λ k, field k = None) surface_keywords
  ∧ Forall (λ l, mentions_any io_tokens (code_part l) = false) source_lines.
Proof.
  split; [reflexivity |]. split; [reflexivity |]. split.
  - eexists. split; [apply exec_setup_py |]. cbn [globals initial].
    apply insert_empty.
  - split; repeat constructor; by vm_compute.
Qed.

(** C8: the [packages] field lists the two external names only; the
    project's own name, chisq_test_wrapper, is not among them. *)
Theorem packages_omit_own_name :
  ∃ (pkgs : list string) (own : string),
    list_field "packages" = Some pkgs
    ∧ str_field "name" = Some own
    ∧ pkgs = ["statsmodels"; "scipy"]
    ∧ own = "chisq_test_wrapper"
    ∧ own ∉ pkgs.
Proof.
  do 2 eexists. split; [by vm_compute |]. split; [by vm_compute |].
  split; [reflexivity |]. split; [reflexivity |].
  rewrite !not_elem_of_cons. repeat split; [discriminate .. | apply not_elem_of_nil].
Qed.

(** C9: every argument of the [setup] call is a literal, and whatever the
    states two runs start from, both complete and leave the same declared
    metadata. *)
Theorem evaluation_deterministic :
  forallb literal_args setup_py = true
  ∧ ∀ σ1 σ2 : state,
      ∃ m : gmap string object,
        distribution <$> exec setup_py σ1 = Some (Some m)
        ∧ distribution <$> exec setup_py σ2 = Some (Some m).
Proof.
  split; [reflexivity |]. intros σ1 σ2.
  assert (distribution <$> exec setup_py σ1
          = distribution <$> exec setup_py σ2) as Heq.
  { unfold setup_py. apply exec_import_call_literal. reflexivity. }
  destruct manifest_declared as [m Hm]. exists m.
  rewrite <- Heq, exec_setup_py.
  change (Some manifest = Some (Some m) ∧ Some manifest = Some (Some m)).
  by rewrite Hm.
Qed.

(** C10: no entry of the [requires] list carries a version constraint:
    none contains a comparison operator or a parenthesis. *)
Theorem requires_unpinned :
  ∃ deps : list string,
    list_field "requires" = Some deps
    ∧ Forall (λ d, has_version_specifier d = false) deps.
Proof.
  eexists. split; [by vm_compute |]. repeat constructor.
Qed.

(** ** Beyond the listed claims *)

Lemma eval_keywords_names (g : gmap string object)
    (kws : list (string * expr)) (attrs : list (string * object)) :
  mapM (eval_keyword g) kws = Some attrs → attrs.*1 = kws.*1.
Proof.
  revert attrs. induction kws as [| kw kws IH]; intros attrs Hm.
  - change (Some [] = Some attrs) in Hm. by simplify_eq.
  - cbn [mapM] in Hm.
    apply bind_Some in Hm as (kv & Hkv & Hm).
    apply bind_Some in Hm as (rest & Hrest & Hm).
    unfold eval_keyword in Hkv. apply bind_Some in Hkv as (v & _ & Hkv).
    change (Some (kv :: rest) = Some attrs) in Hm.
    simplify_eq/=. f_equal. by apply IH.
Qed.

(** A call that succeeds leaves a distribution whose attributes are
    exactly the keywords it was given. *)
Lemma exec_call_dom (f : string) (kws : list (string * expr))
    (σ σ' : state) :
  exec_stmt (SCall f kws) σ = Some σ' →
  ∃ m : gmap string object,
    distribution σ' = Some m ∧ ∀ k, is_Some (m !! k) ↔ k ∈ kws.*1.
Proof.
  cbn [exec_stmt]. destruct (decide _); [| discriminate].
  destruct (globals σ !! f) as [callee |]; [| discriminate].
  cbn [mbind option_bind]. destruct (is_setup callee); [| discriminate].
  destruct (mapM _ kws) as [attrs |] eqn:Hattrs; [| discriminate].
  cbn [mbind option_bind]. intros [= <-]. eexists. split; [reflexivity |].
  intros k. rewrite <- (eval_keywords_names _ _ _ Hattrs).
  rewrite <- elem_of_dom, dom_list_to_map_L, elem_of_list_to_set.
  reflexivity.
Qed.

(** X1: the manifest declares the nine attributes of the call and no
    other: a field is present exactly when its key is one of name,
    version, packages, url, license, author, author_email, description,
    requires. *)
Theorem declared_keys_exactly (k : string) :
  is_Some (field k)
  ↔ k ∈ ["name"; "version"; "packages"; "url"; "license"; "author";
         "author_email"; "description"; "requires"].
Proof.
  unfold field, manifest. rewrite exec_setup_py.
  cbn [mbind option_bind distribution].
  pose proof (exec_setup_py initial) as Hrun.
  unfold setup_py in Hrun.
  change (exec [?s1; ?s2] initial)
    with (exec [s2] (State (<["setup" := OFunc "distutils.core" "setup"]> ∅)
                           None)) in Hrun.
  rewrite exec_singleton in Hrun.
  destruct (exec_call_dom _ _ _ _ Hrun) as (m & Hm & Hdom).
  cbn [distribution] in Hm. rewrite Hm. cbn [mbind option_bind].
  apply Hdom.
Qed.

(** X2: the homepage is the project's page on GitHub: the url field is
    https://github.com/neuhofmo/ followed by the name field. *)
Theorem url_ends_with_name :
  ∃ n u : string,
    str_field "name" = Some n
    ∧ str_field "url" = Some u
    ∧ u = "https://github.com/neuhofmo/" ++ n.
Proof. do 2 eexists. repeat split; by vm_compute. Qed.

(** X3: running the file binds [setup] and touches no other global:
    whatever state it starts from, every other name is bound afterwards
    exactly as it was before. *)
Theorem exec_preserves_other_globals (σ : state) (x : string) :
  x ≠ "setup" →
  ∃ σ' : state,
    exec setup_py σ = Some σ'
    ∧ globals σ' !! x = globals σ !! x
    ∧ globals σ' !! "setup" = Some setup_fn.
Proof.
  intros Hx. eexists. split; [apply exec_setup_py |]. cbn [globals].
  split; [by apply lookup_insert_ne | apply lookup_insert_eq].
Qed.

Lemma exec_preserves_other_globals_witness :
  ∃ σ' : state,
    exec setup_py (State {["chisq" := OStr "loaded"]} None) = Some σ'
    ∧ globals σ' !! "chisq"
      = globals (State {["chisq" := OStr "loaded"]} None) !! "chisq"
    ∧ globals σ' !! "setup" = Some setup_fn.
Proof.
  apply (exec_preserves_other_globals
           (State {["chisq" := OStr "loaded"]} None) "chisq").
  discriminate.
Defined.
